(** * RegisterCubeMakerNode: the CubeMaker node type and its Op chain builder

    A shallow embedding of [RegisterCubeMakerNode.py].  The script registers
    a node type with the host's [NodeTypeBuilder] and gives it a callback,
    [buildCubeMakerOpChain], which turns the node's parameters into the
    arguments of one [CubeMaker] Op.

    The host objects ([node], [interface], [FnAttribute]) are not part of the
    script: they are modelled by what the script does to them.  Every call
    the callback makes on them is recorded in a trace of [Event]s, and an
    uncaught Python exception ends the run with a [Py.error]. *)

From Stdlib Require Import ZArith String Ascii List Floats.SpecFloat.
From stdpp Require Import base option list strings gmap fin_maps.

Local Open Scope string_scope.
Local Open Scope list_scope.
Local Open Scope Z_scope.

(* Let [simpl] compute the append of a string that starts with a known
   character. *)
#[local] Arguments String.append !_ _ / : simpl nomatch.

(** ** Python values *)

Module Py.

(** The scalars a parameter holds or a hint dictionary stores.  A [str] is a
    byte string, a [float] is a binary floating-point number in the
    representation of [SpecFloat]. *)
Inductive value : Type :=
  | PStr (s : string)
  | PInt (n : Z)
  | PBool (b : bool)
  | PFloat (f : spec_float).

(** The exceptions the callback can run into.  It has no [raise] of its own:
    [AttributeError] comes from calling a method on [None], [TypeError] from
    slicing a value that is not a sequence. *)
Inductive error : Type :=
  | AttributeError
  | TypeError.

(** [f == k] for a float [f] and an integer [k]: Python compares the two
    numbers exactly. *)
Definition float_eq_int (f : spec_float) (k : Z) : bool :=
  match f with
  | S754_zero _ => k =? 0
  | S754_finite s m e =>
      let sm := if s then Z.neg m else Z.pos m in
      if 0 <=? e then sm * 2 ^ e =? k else sm =? k * 2 ^ (- e)
  | S754_infinity _ | S754_nan => false
  end.

(** [v == k] for an integer literal [k]. *)
Definition eq_int (v : value) (k : Z) : bool :=
  match v with
  | PInt n => n =? k
  | PBool b => (if b then 1 else 0) =? k
  | PFloat f => float_eq_int f k
  | PStr _ => false
  end.

(** [s[1:]] on a string: everything after the first character, and the
    empty string when there is none. *)
Definition str_slice_from1 (s : string) : string :=
  match s with
  | EmptyString => EmptyString
  | String _ rest => rest
  end.

(** [v[1:]]: only a string can be sliced. *)
Definition getslice_from1 (v : value) : error + string :=
  match v with
  | PStr s => inr (str_slice_from1 s)
  | PInt _ | PBool _ | PFloat _ => inl TypeError
  end.

(** [s.split(sep)] for a separator of one character.  The result always has
    one more element than [s] has separators, so it is never empty. *)
Fixpoint split (sep : ascii) (s : string) : list string :=
  match s with
  | EmptyString => [EmptyString]
  | String c rest =>
      if Ascii.eqb c sep then EmptyString :: split sep rest
      else match split sep rest with
           | [] => [String c EmptyString]
           | word :: words => String c word :: words
           end
  end.

(** [l[1:]] on a list. *)
Definition list_slice_from1 {A} (l : list A) : list A := tail l.

(** [sep.join(l)]. *)
Fixpoint join (sep : string) (l : list string) : string :=
  match l with
  | [] => EmptyString
  | [x] => x
  | x :: rest => x +:+ sep +:+ join sep rest
  end.

(** [[x for t in zip([c] * len(l), l) for x in t]]. *)
Definition interleave (c : string) (l : list string) : list string :=
  concat (map (fun t : string * string => [t.1; t.2])
              (zip (replicate (length l) c) l)).

End Py.

(** ** The host's attributes *)

Module FnAttribute.

(** Modelled from the spec: the [FnAttribute] module of the host is not
    part of the script.  A leaf attribute is one of the three typed scalars
    the script makes; the model records the constructor and the Python
    value it was given and leaves any conversion to the host. *)
Inductive Attribute : Type :=
  | StringAttribute (v : Py.value)
  | IntAttribute (v : Py.value)
  | DoubleAttribute (v : Py.value).

(** Modelled from the spec: a group attribute, the "nested, order-independent
    mapping" that [GroupBuilder.build()] returns.  The tree is represented
    by its leaves: a finite map from the dotted path the script passed to
    [set] to the leaf stored there. *)
Abbreviation GroupAttribute := (gmap string Attribute).

(** Modelled from the spec: [GroupBuilder], the accumulator of [set] calls.
    [FnAttribute.GroupBuilder()] starts empty, [set] stores a leaf under a
    dotted path (a second [set] on the same path replaces the first), and
    [build] returns what was accumulated. *)
Abbreviation GroupBuilder := (gmap string Attribute).

Definition GroupBuilder_new : GroupBuilder := ∅.

Definition GroupBuilder_set (path : string) (attr : Attribute)
    (gb : GroupBuilder) : GroupBuilder :=
  <[path := attr]> gb.

Definition GroupBuilder_build (gb : GroupBuilder) : GroupAttribute := gb.

(** The name of the leaf a dotted path ends in: its last component. *)
Definition leaf_name (path : string) : string :=
  List.last (Py.split "." path) EmptyString.

(** Whether some leaf of the group is named [key]. *)
Definition contains_key (g : GroupAttribute) (key : string) : bool :=
  existsb (fun kv : string * Attribute => String.eqb (leaf_name kv.1) key)
          (map_to_list g).

End FnAttribute.
Export FnAttribute.

(** ** The node, the build interface, and the trace of a run *)

(** Evaluation time: [getTime()] returns a float. *)
Abbreviation time := spec_float.

(** A [Parameter] object of the host is observed through [getValue(time)] alone. *)
Record Param : Type := { getValue : time -> Py.value }.

(** A node is observed through [getParameter(name)] alone, which returns the
    parameter of that name, or [None] when the node has none. *)
Abbreviation Node := (gmap string Param).

Definition getParameter (node : Node) (name : string) : option Param :=
  node !! name.

(** The value a node's parameter has at a time, when the node has it. *)
Definition valueAt (node : Node) (name : string) (t : time) : option Py.value :=
  (fun p => getValue p t) <$> getParameter node name.

(** What the callback reads from the interface. *)
Record Interface : Type := { getGraphState_getTime : time }.

(** What the callback does to the host, in order: the two effects on the
    interface, and the parameter values it reads. *)
Inductive Event : Type :=
  | SetMinRequiredInputs (n : Z)
  | AppendOp (opType : string) (opArgs : GroupAttribute)
  | GetValue (param : string) (t : time).

(** A run: the events so far, and either the exception that ended it or
    its result. *)
Definition Run (A : Type) : Type := list Event * (Py.error + A).

Definition ret {A} (a : A) : Run A := ([], inr a).

Definition bind {A B} (m : Run A) (k : A -> Run B) : Run B :=
  match m with
  | (tr, inl e) => (tr, inl e)
  | (tr, inr a) => let (tr', r) := k a in (tr ++ tr', r)
  end.

Definition emit (ev : Event) : Run unit := ([ev], inr tt).

Definition lift {A} (r : Py.error + A) : Run A := ([], r).

Notation "'do' x <- m ; k" := (bind m (fun x => k))
  (at level 10, x name, m at level 100, k at level 200).
Notation "'call' m ; k" := (bind m (fun _ => k))
  (at level 10, m at level 100, k at level 200).

Definition trace {A} (r : Run A) : list Event := r.1.
Definition outcome {A} (r : Run A) : Py.error + A := r.2.

(** [interface.setMinRequiredInputs(n)] *)
Definition setMinRequiredInputs (n : Z) : Run unit :=
  emit (SetMinRequiredInputs n).

(** [interface.appendOp(opType, opArgs)] *)
Definition appendOp (opType : string) (opArgs : GroupAttribute) : Run unit :=
  emit (AppendOp opType opArgs).

(** [param.getValue(t)] where [param] is what [getParameter(name)]
    returned: on [None] the attribute lookup fails. *)
Definition param_getValue (name : string) (param : option Param)
    (t : time) : Run Py.value :=
  match param with
  | None => lift (inl Py.AttributeError)
  | Some p => call emit (GetValue name t); ret (getValue p t)
  end.

(** ** The callback *)

(** The hierarchy path of a location: lines 48 to 51. *)
Definition locationPaths (s : string) : list string :=
  Py.list_slice_from1 (Py.split "/" s).

Definition attrsHierarchy (paths : list string) : string :=
  Py.join "." (Py.interleave "c" paths).

(** The hierarchy path the callback derives from the string [location]. *)
Definition hierarchyOf (location : string) : string :=
  attrsHierarchy (locationPaths (Py.str_slice_from1 location)).

(** [buildCubeMakerOpChain(node, interface)].  A [Parameter] object is true
    in [if locationParam:], [None] is false. *)
Definition buildCubeMakerOpChain (node : Node) (interface : Interface)
    : Run unit :=
  let frameTime := getGraphState_getTime interface in
  call setMinRequiredInputs 0;
  let argsGb := GroupBuilder_new in
  let locationParam := getParameter node "location" in
  let numberOfCubesParam := getParameter node "numberOfCubes" in
  let rotateCubesParam := getParameter node "rotateCubes" in
  let maxRotationParam := getParameter node "maxRotation" in
  do argsGb <-
    match locationParam with
    | Some _ =>
        do location <- param_getValue "location" locationParam frameTime;
        do sliced <- lift (Py.getslice_from1 location);
        let paths := locationPaths sliced in
        let hierarchy := attrsHierarchy paths in
        do numberOfCubes <-
          param_getValue "numberOfCubes" numberOfCubesParam frameTime;
        let argsGb :=
          GroupBuilder_set (hierarchy +:+ ".a.numberOfCubes")
                           (IntAttribute numberOfCubes) argsGb in
        do rotateCubes <-
          param_getValue "rotateCubes" rotateCubesParam frameTime;
        if Py.eq_int rotateCubes 1 then
          do maxRotation <-
            param_getValue "maxRotation" maxRotationParam frameTime;
          ret (GroupBuilder_set (hierarchy +:+ ".a.maxRotation")
                                (DoubleAttribute maxRotation) argsGb)
        else ret argsGb
    | None => ret argsGb
    end;
  appendOp "CubeMaker" (GroupBuilder_build argsGb).

(** The Ops a run appended, and the minimum input counts it declared. *)
Definition appendedOps (tr : list Event) : list (string * GroupAttribute) :=
  omap (fun ev => match ev with
                  | AppendOp opType opArgs => Some (opType, opArgs)
                  | _ => None
                  end) tr.

Definition minRequiredInputsCalls (tr : list Event) : list Z :=
  omap (fun ev => match ev with
                  | SetMinRequiredInputs n => Some n
                  | _ => None
                  end) tr.

Definition valuesRead (tr : list Event) : list string :=
  omap (fun ev => match ev with
                  | GetValue name _ => Some name
                  | _ => None
                  end) tr.

(** ** Registration *)

Module Nodes3DAPI.

(** Modelled from the spec: the host's [NodeTypeBuilder] is not part of the
    script.  It is the record of what the script gave it: the name of the
    node type, the parameters template, the hints of each parameter, and
    the callback that builds the Ops chain. *)
Record NodeTypeBuilder : Type := {
  nodeType : string;
  parametersTemplateAttr : GroupAttribute;
  hintsForParameter : gmap string (gmap string Py.value);
  buildOpChainFnc : option (Node -> Interface -> Run unit);
}.

Definition NodeTypeBuilder_new (name : string) : NodeTypeBuilder :=
  {| nodeType := name; parametersTemplateAttr := ∅;
     hintsForParameter := ∅; buildOpChainFnc := None |}.

Definition setParametersTemplateAttr (attr : GroupAttribute)
    (b : NodeTypeBuilder) : NodeTypeBuilder :=
  {| nodeType := nodeType b; parametersTemplateAttr := attr;
     hintsForParameter := hintsForParameter b;
     buildOpChainFnc := buildOpChainFnc b |}.

Definition setHintsForParameter (name : string) (hints : gmap string Py.value)
    (b : NodeTypeBuilder) : NodeTypeBuilder :=
  {| nodeType := nodeType b;
     parametersTemplateAttr := parametersTemplateAttr b;
     hintsForParameter := <[name := hints]> (hintsForParameter b);
     buildOpChainFnc := buildOpChainFnc b |}.

Definition setBuildOpChainFnc (fnc : Node -> Interface -> Run unit)
    (b : NodeTypeBuilder) : NodeTypeBuilder :=
  {| nodeType := nodeType b;
     parametersTemplateAttr := parametersTemplateAttr b;
     hintsForParameter := hintsForParameter b;
     buildOpChainFnc := Some fnc |}.

End Nodes3DAPI.
Export Nodes3DAPI.

(** The parameters template: lines 68 to 73. *)
Definition parametersTemplate : GroupAttribute :=
  let gb := GroupBuilder_new in
  let gb := GroupBuilder_set "location"
              (StringAttribute (Py.PStr "/root/world/geo/cubeMaker")) gb in
  let gb := GroupBuilder_set "numberOfCubes" (IntAttribute (Py.PInt 20)) gb in
  let gb := GroupBuilder_set "rotateCubes" (IntAttribute (Py.PInt 0)) gb in
  let gb := GroupBuilder_set "maxRotation" (DoubleAttribute (Py.PInt 0)) gb in
  GroupBuilder_build gb.

(** [registerCubeMaker()]: the node type as it is when the script calls
    [nodeTypeBuilder.build()]. *)
Definition registerCubeMaker : NodeTypeBuilder :=
  let nodeTypeBuilder := NodeTypeBuilder_new "CubeMaker" in
  let nodeTypeBuilder :=
    setParametersTemplateAttr parametersTemplate nodeTypeBuilder in
  let nodeTypeBuilder :=
    setHintsForParameter "location"
      {[ "widget" := Py.PStr "scenegraphLocation" ]} nodeTypeBuilder in
  let nodeTypeBuilder :=
    setHintsForParameter "numberOfCubes"
      {[ "int" := Py.PBool true ]} nodeTypeBuilder in
  let nodeTypeBuilder :=
    setHintsForParameter "rotateCubes"
      {[ "widget" := Py.PStr "boolean" ]} nodeTypeBuilder in
  let nodeTypeBuilder :=
    setHintsForParameter "maxRotation"
      (<[ "conditionalVisOp" := Py.PStr "equalTo" ]>
       (<[ "conditionalVisPath" := Py.PStr "../rotateCubes" ]>
        {[ "conditionalVisValue" := Py.PInt 1 ]})) nodeTypeBuilder in
  setBuildOpChainFnc buildCubeMakerOpChain nodeTypeBuilder.

(** ** Nodes and values to run the callback on *)

(** A parameter whose value does not change over time. *)
Definition constant (v : Py.value) : Param := {| getValue := fun _ => v |}.

(** The doubles 0.0, 1.0 and 15.0. *)
Definition double_0 : spec_float := S754_zero false.
Definition double_1 : spec_float := S754_finite false 4503599627370496 (-52).
Definition double_15 : spec_float := S754_finite false 8444249301319680 (-49).

Definition frame (t : time) : Interface := {| getGraphState_getTime := t |}.

(** A node with the four parameters of the template. *)
Definition cubeMakerNode (location : string) (numberOfCubes rotateCubes : Z)
    (maxRotation : spec_float) : Node :=
  <[ "location" := constant (Py.PStr location) ]>
  (<[ "numberOfCubes" := constant (Py.PInt numberOfCubes) ]>
   (<[ "rotateCubes" := constant (Py.PInt rotateCubes) ]>
    {[ "maxRotation" := constant (Py.PFloat maxRotation) ]})).

Definition defaultNode : Node :=
  cubeMakerNode "/root/world/geo/cubeMaker" 20 0 double_0.

(** A node that has the [location] parameter and no other. *)
Definition locationOnlyNode : Node :=
  {[ "location" := constant (Py.PStr "/root/world/geo/cubeMaker") ]}.

(** A node whose [numberOfCubes] grows after frame 0 and that has one more
    parameter, which the callback does not look at. *)
Definition animatedNode : Node :=
  <[ "numberOfCubes" :=
       {| getValue := fun t => if SFeqb t double_0 then Py.PInt 20
                               else Py.PInt 21 |} ]>
  (<[ "seed" := constant (Py.PInt 7) ]> defaultNode).

(** ** The form of a location and of a hierarchy path, in the spec's words *)

(** Whether the character [c] occurs in [s]. *)
Fixpoint has_char (c : ascii) (s : string) : bool :=
  match s with
  | EmptyString => false
  | String c' rest => Ascii.eqb c' c || has_char c rest
  end.

(** A path segment has no ["/"] in it. *)
Definition is_segment (s : string) : bool := negb (has_char "/" s).

(** The location [/a/b/.../n] of the segments [a; b; ...; n]. *)
Fixpoint location_of (segments : list string) : string :=
  match segments with
  | [] => EmptyString
  | s :: rest => "/" +:+ s +:+ location_of rest
  end.

(** The path [c.<seg1>.c.<seg2>....c.<segN>] of the segments
    [seg1; ...; segN]. *)
Fixpoint hierarchy_path (segments : list string) : string :=
  match segments with
  | [] => EmptyString
  | [s] => "c." +:+ s
  | s :: rest => "c." +:+ s +:+ "." +:+ hierarchy_path rest
  end.

(** Whether a value is a [str]. *)
Definition is_str (v : Py.value) : bool :=
  match v with
  | Py.PStr _ => true
  | Py.PInt _ | Py.PBool _ | Py.PFloat _ => false
  end.

(** The default node with a number where its [location] should be. *)
Definition numericLocationNode : Node :=
  <[ "location" := constant (Py.PInt 3) ]> defaultNode.

(** How many times the character [c] occurs in [s]. *)
Fixpoint count_char (c : ascii) (s : string) : nat :=
  match s with
  | EmptyString => O
  | String c' rest =>
      if Ascii.eqb c' c then S (count_char c rest) else count_char c rest
  end.

(** A name that can be one component of a dotted path: no ["."] in it. *)
Definition is_name (s : string) : bool := negb (has_char "." s).

(** ** Strings *)

Section Strings.

Implicit Types (s t : string) (sep c : ascii).

Lemma append_empty_r s : s +:+ "" = s.
Proof. induction s as [|c s IH]; simpl; [done | by f_equal]. Qed.

Lemma append_assoc s1 s2 s3 : (s1 +:+ s2) +:+ s3 = s1 +:+ (s2 +:+ s3).
Proof. induction s1 as [|c s1 IH]; simpl; [done | by f_equal]. Qed.

Lemma split_not_nil sep s : Py.split sep s ≠ [].
Proof.
  destruct s as [|c s]; simpl; [done|].
  destruct (Ascii.eqb c sep); [done|].
  by destruct (Py.split sep s).
Qed.

(** [(s + sep + t).split(sep) == s.split(sep) + t.split(sep)] *)
Lemma split_append sep s t :
  Py.split sep (s +:+ String sep t) = Py.split sep s ++ Py.split sep t.
Proof.
  induction s as [|c s IH]; simpl.
  - by rewrite Ascii.eqb_refl.
  - rewrite IH. destruct (Ascii.eqb c sep); [done|].
    pose proof (split_not_nil sep s) as Hne.
    by destruct (Py.split sep s).
Qed.

Lemma split_no_sep sep s : has_char sep s = false -> Py.split sep s = [s].
Proof.
  induction s as [|c s IH]; simpl; [done|].
  intros [Hc Hs]%orb_false_iff. by rewrite Hc, (IH Hs).
Qed.

(** Splitting the location of some segments gives an empty word and then
    the segments. *)
Lemma split_location_of segments :
  forallb is_segment segments = true ->
  Py.split "/" (location_of segments) =
    match segments with [] => [""] | _ => "" :: segments end.
Proof.
  induction segments as [|seg rest IH]; simpl; [done|].
  intros [Hseg Hrest]%andb_true_iff. f_equal.
  apply negb_true_iff in Hseg.
  destruct rest as [|seg' rest].
  - simpl. rewrite append_empty_r. by apply split_no_sep.
  - specialize (IH Hrest). simpl in *.
    rewrite split_append, (split_no_sep _ _ Hseg). simpl.
    injection IH as ->. done.
Qed.

(** The last component of [s + sep + t] is the last component of [t]. *)
Lemma last_split_append sep s t d :
  List.last (Py.split sep (s +:+ String sep t)) d =
  List.last (Py.split sep t) d.
Proof.
  rewrite split_append.
  destruct (exists_last (split_not_nil sep t)) as (ws & w & ->).
  by rewrite app_assoc, !last_last.
Qed.

End Strings.

Example split_location :
  Py.split "/" "root/world/geo/cubeMaker" = ["root"; "world"; "geo"; "cubeMaker"].
Proof. reflexivity. Qed.

Example split_empty : Py.split "/" "" = [""].
Proof. reflexivity. Qed.

Example join_interleave :
  Py.join "." (Py.interleave "c" ["world"; "geo"]) = "c.world.c.geo".
Proof. reflexivity. Qed.

(** ** The hierarchy path *)

Lemma interleave_cons c s rest :
  Py.interleave c (s :: rest) = c :: s :: Py.interleave c rest.
Proof. reflexivity. Qed.

(** Lines 49 to 51 build the path the spec describes. *)
Lemma attrsHierarchy_hierarchy_path segments :
  attrsHierarchy segments = hierarchy_path segments.
Proof.
  unfold attrsHierarchy.
  induction segments as [|s rest IH]; [done|].
  rewrite interleave_cons.
  destruct rest as [|s' rest]; [done|].
  rewrite interleave_cons in *.
  change (hierarchy_path (s :: s' :: rest))
    with ("c." +:+ s +:+ "." +:+ hierarchy_path (s' :: rest)).
  rewrite <- IH. reflexivity.
Qed.

(** Lines 48: the segments of a location after its first. *)
Lemma locationPaths_location_of first segments :
  forallb is_segment (first :: segments) = true ->
  locationPaths (Py.str_slice_from1 (location_of (first :: segments)))
    = segments.
Proof.
  intros [Hfirst Hrest]%andb_true_iff. apply negb_true_iff in Hfirst.
  unfold locationPaths. simpl.
  destruct segments as [|s rest].
  - simpl. rewrite append_empty_r. by rewrite split_no_sep.
  - pose proof (split_location_of (s :: rest) Hrest) as Hsplit.
    simpl in *. rewrite split_append, (split_no_sep _ _ Hfirst).
    simpl. injection Hsplit as ->. done.
Qed.

Lemma leaf_name_append path key :
  has_char "." key = false -> leaf_name (path +:+ "." +:+ key) = key.
Proof.
  intros Hkey. unfold leaf_name.
  change ("." +:+ key) with (String "." key).
  by rewrite last_split_append, split_no_sep.
Qed.

Lemma leaf_name_a path key :
  has_char "." key = false -> leaf_name (path +:+ ".a." +:+ key) = key.
Proof.
  intros Hkey.
  change (".a." +:+ key) with (".a" +:+ "." +:+ key).
  rewrite <- append_assoc. by apply leaf_name_append.
Qed.

(** ** The runs of the callback, case by case *)

Section Runs.

Variables (node : Node) (interface : Interface).

Let t : time := getGraphState_getTime interface.

Lemma valueAt_Some name v :
  valueAt node name t = Some v <->
  exists p, node !! name = Some p /\ getValue p t = v.
Proof.
  unfold valueAt, getParameter. destruct (node !! name) as [p|]; simpl.
  - split; [intros [= <-]; eauto | intros (? & [= <-] & <-); done].
  - split; [done | intros (? & [=] & _)].
Qed.

Lemma valueAt_None name : valueAt node name t = None <-> node !! name = None.
Proof. unfold valueAt, getParameter. by destruct (node !! name). Qed.

Ltac run_callback :=
  unfold buildCubeMakerOpChain, valueAt, getParameter, hierarchyOf in *;
  repeat match goal with
         | H : context [node !! ?k] |- _ =>
             lazymatch type of H with
             | node !! k = _ => fail
             | _ => destruct (node !! k) eqn:?; simpl in H; simplify_eq
             end
         end;
  repeat match goal with H : node !! _ = _ |- _ => rewrite H end;
  subst t; simpl;
  repeat match goal with
         | H : getValue _ _ = _ |- _ => rewrite H; simpl
         | H : Py.eq_int _ _ = _ |- _ => rewrite H; simpl
         | H : Py.getslice_from1 _ = _ |- _ => rewrite H; simpl
         end;
  try reflexivity.

(** Without a [location] parameter the Op gets no arguments. *)
Lemma run_location_absent :
  valueAt node "location" t = None ->
  buildCubeMakerOpChain node interface =
    ([SetMinRequiredInputs 0; AppendOp "CubeMaker" ∅], inr tt).
Proof. intros. run_callback. Qed.

(** A [location] that is not a string cannot be sliced. *)
Lemma run_location_not_str v :
  valueAt node "location" t = Some v ->
  Py.getslice_from1 v = inl Py.TypeError ->
  buildCubeMakerOpChain node interface =
    ([SetMinRequiredInputs 0; GetValue "location" t], inl Py.TypeError).
Proof. intros. run_callback. Qed.

Lemma run_numberOfCubes_absent location :
  valueAt node "location" t = Some (Py.PStr location) ->
  valueAt node "numberOfCubes" t = None ->
  buildCubeMakerOpChain node interface =
    ([SetMinRequiredInputs 0; GetValue "location" t], inl Py.AttributeError).
Proof. intros. run_callback. Qed.

Lemma run_rotateCubes_absent location n :
  valueAt node "location" t = Some (Py.PStr location) ->
  valueAt node "numberOfCubes" t = Some n ->
  valueAt node "rotateCubes" t = None ->
  buildCubeMakerOpChain node interface =
    ([SetMinRequiredInputs 0; GetValue "location" t;
      GetValue "numberOfCubes" t], inl Py.AttributeError).
Proof. intros. run_callback. Qed.

Lemma run_maxRotation_absent location n r :
  valueAt node "location" t = Some (Py.PStr location) ->
  valueAt node "numberOfCubes" t = Some n ->
  valueAt node "rotateCubes" t = Some r ->
  Py.eq_int r 1 = true ->
  valueAt node "maxRotation" t = None ->
  buildCubeMakerOpChain node interface =
    ([SetMinRequiredInputs 0; GetValue "location" t;
      GetValue "numberOfCubes" t; GetValue "rotateCubes" t],
     inl Py.AttributeError).
Proof. intros. run_callback. Qed.

(** [rotateCubes] is not 1: one attribute, and [maxRotation] is not read. *)
Lemma run_not_rotating location n r :
  valueAt node "location" t = Some (Py.PStr location) ->
  valueAt node "numberOfCubes" t = Some n ->
  valueAt node "rotateCubes" t = Some r ->
  Py.eq_int r 1 = false ->
  buildCubeMakerOpChain node interface =
    ([SetMinRequiredInputs 0; GetValue "location" t;
      GetValue "numberOfCubes" t; GetValue "rotateCubes" t;
      AppendOp "CubeMaker"
        {[ hierarchyOf location +:+ ".a.numberOfCubes" := IntAttribute n ]}],
     inr tt).
Proof. intros. run_callback. Qed.

(** [rotateCubes] is 1: two attributes. *)
Lemma run_rotating location n r m :
  valueAt node "location" t = Some (Py.PStr location) ->
  valueAt node "numberOfCubes" t = Some n ->
  valueAt node "rotateCubes" t = Some r ->
  Py.eq_int r 1 = true ->
  valueAt node "maxRotation" t = Some m ->
  buildCubeMakerOpChain node interface =
    ([SetMinRequiredInputs 0; GetValue "location" t;
      GetValue "numberOfCubes" t; GetValue "rotateCubes" t;
      GetValue "maxRotation" t;
      AppendOp "CubeMaker"
        (<[ hierarchyOf location +:+ ".a.maxRotation" := DoubleAttribute m ]>
         {[ hierarchyOf location +:+ ".a.numberOfCubes" := IntAttribute n ]})],
     inr tt).
Proof. intros. run_callback. Qed.

End Runs.

(** Every run is one of the seven above: case analysis on the values the
    callback reads, in the order it reads them. *)
Ltac run_cases node t :=
  let Hloc := fresh "Hloc" in
  let Hn := fresh "Hn" in
  let Hr := fresh "Hr" in
  let Hrot := fresh "Hrot" in
  let Hm := fresh "Hm" in
  destruct (valueAt node "location" t) as [[location|?|?|?]|] eqn:Hloc;
  [ destruct (valueAt node "numberOfCubes" t) as [n|] eqn:Hn;
    [ destruct (valueAt node "rotateCubes" t) as [r|] eqn:Hr;
      [ destruct (Py.eq_int r 1) eqn:Hrot;
        [ destruct (valueAt node "maxRotation" t) as [m|] eqn:Hm;
          [ rewrite (run_rotating node (frame t) _ _ _ _ Hloc Hn Hr Hrot Hm)
          | rewrite (run_maxRotation_absent node (frame t) _ _ _
                       Hloc Hn Hr Hrot Hm) ]
        | rewrite (run_not_rotating node (frame t) _ _ _ Hloc Hn Hr Hrot) ]
      | rewrite (run_rotateCubes_absent node (frame t) _ _ Hloc Hn Hr) ]
    | rewrite (run_numberOfCubes_absent node (frame t) _ Hloc Hn) ]
  | rewrite (run_location_not_str node (frame t) _ Hloc eq_refl)
  | rewrite (run_location_not_str node (frame t) _ Hloc eq_refl)
  | rewrite (run_location_not_str node (frame t) _ Hloc eq_refl)
  | rewrite (run_location_absent node (frame t) Hloc) ];
  simpl getGraphState_getTime in *.

(** ** Groups and their keys *)

Lemma contains_key_spec (g : GroupAttribute) key :
  contains_key g key = true <->
  exists path attr, g !! path = Some attr /\ leaf_name path = key.
Proof.
  unfold contains_key. rewrite existsb_exists. split.
  - intros ([path attr] & Hin & Heq). exists path, attr.
    apply list_elem_of_In, elem_of_map_to_list in Hin.
    by apply String.eqb_eq in Heq.
  - intros (path & attr & Hlook & Hleaf). exists (path, attr). split.
    + by apply list_elem_of_In, elem_of_map_to_list.
    + by apply String.eqb_eq.
Qed.

Lemma paths_differ hierarchy :
  hierarchy +:+ ".a.maxRotation" <> hierarchy +:+ ".a.numberOfCubes".
Proof. intros Heq. by apply (inj (String.append hierarchy)) in Heq. Qed.

(** A run that has all the parameters it reads completes, and appends one
    Op whose arguments are the attributes of lines 52 to 58. *)
Lemma run_completes node interface location n r :
  let t := getGraphState_getTime interface in
  let run := buildCubeMakerOpChain node interface in
  valueAt node "location" t = Some (Py.PStr location) ->
  valueAt node "numberOfCubes" t = Some n ->
  valueAt node "rotateCubes" t = Some r ->
  (Py.eq_int r 1 = true -> is_Some (node !! "maxRotation")) ->
  exists args : GroupAttribute,
    outcome run = inr tt /\
    appendedOps (trace run) = [("CubeMaker", args)] /\
    args !! (hierarchyOf location +:+ ".a.numberOfCubes")
      = Some (IntAttribute n) /\
    (Py.eq_int r 1 = false ->
       args = {[ hierarchyOf location +:+ ".a.numberOfCubes"
                   := IntAttribute n ]}) /\
    (Py.eq_int r 1 = true ->
       exists m, valueAt node "maxRotation" t = Some m /\
         args !! (hierarchyOf location +:+ ".a.maxRotation")
           = Some (DoubleAttribute m)).
Proof.
  intros t run Hloc Hn Hr Hmax. subst run.
  destruct (Py.eq_int r 1) eqn:Hrot.
  - destruct (Hmax eq_refl) as [p Hp].
    assert (valueAt node "maxRotation" t = Some (getValue p t)) as Hm
      by (apply valueAt_Some; eauto).
    rewrite (run_rotating _ _ _ _ _ _ Hloc Hn Hr Hrot Hm).
    eexists. repeat split; simpl.
    + rewrite lookup_insert_ne by apply paths_differ.
      apply lookup_singleton_eq.
    + done.
    + intros _. exists (getValue p t). split; [done|].
      apply lookup_insert_eq.
  - rewrite (run_not_rotating _ _ _ _ _ Hloc Hn Hr Hrot).
    eexists. repeat split; simpl.
    + apply lookup_singleton_eq.
    + done.
Qed.

(** ** The claims *)

(** C1: when [location] has the form [/a/b/.../n], the segments after the
    first, [b; ...; n], are what line 48 derives, and the [numberOfCubes]
    attribute is stored under the path [c.b. ... .c.n.a.numberOfCubes],
    which interleaves the token [c] with these segments.  The sibling
    parameters the run reads are present, so that it completes. *)
Theorem C1_location_hierarchy_path node t first segments n r :
  forallb is_segment (first :: segments) = true ->
  valueAt node "location" t
    = Some (Py.PStr (location_of (first :: segments))) ->
  valueAt node "numberOfCubes" t = Some n ->
  valueAt node "rotateCubes" t = Some r ->
  (Py.eq_int r 1 = true -> is_Some (node !! "maxRotation")) ->
  locationPaths (Py.str_slice_from1 (location_of (first :: segments)))
    = segments /\
  exists args : GroupAttribute,
    outcome (buildCubeMakerOpChain node (frame t)) = inr tt /\
    appendedOps (trace (buildCubeMakerOpChain node (frame t)))
      = [("CubeMaker", args)] /\
    args !! (hierarchy_path segments +:+ ".a.numberOfCubes")
      = Some (IntAttribute n).
Proof.
  intros Hseg Hloc Hn Hr Hmax.
  pose proof (locationPaths_location_of _ _ Hseg) as Hpaths.
  split; [done|].
  destruct (run_completes node (frame t) _ _ _ Hloc Hn Hr Hmax)
    as (args & Hout & Hops & Hlook & _).
  exists args. repeat split; [done..|].
  unfold hierarchyOf in Hlook.
  by rewrite Hpaths, attrsHierarchy_hierarchy_path in Hlook.
Qed.

(** The location of the template: the attribute is stored under
    [c.world.c.geo.c.cubeMaker.a.numberOfCubes]. *)
Lemma C1_default_location :
  locationPaths (Py.str_slice_from1 "/root/world/geo/cubeMaker")
    = ["world"; "geo"; "cubeMaker"] /\
  exists args : GroupAttribute,
    outcome (buildCubeMakerOpChain defaultNode (frame double_0)) = inr tt /\
    appendedOps (trace (buildCubeMakerOpChain defaultNode (frame double_0)))
      = [("CubeMaker", args)] /\
    args !! "c.world.c.geo.c.cubeMaker.a.numberOfCubes"
      = Some (IntAttribute (Py.PInt 20)).
Proof.
  apply (C1_location_hierarchy_path defaultNode double_0
           "root" ["world"; "geo"; "cubeMaker"] (Py.PInt 20) (Py.PInt 0)).
  - reflexivity.
  - vm_compute; reflexivity.
  - vm_compute; reflexivity.
  - vm_compute; reflexivity.
  - simpl; intros Hrot; discriminate Hrot.
Defined.

(** C9: when what follows the first character of [location] has no ["/"]
    (as in [location = "/root"]), splitting it gives fewer than two
    components: no segment is left, the hierarchy path is the empty string,
    and [numberOfCubes] is stored under [.a.numberOfCubes], so the Op's
    arguments are not empty. *)
Theorem C9_short_location node t location n r :
  valueAt node "location" t = Some (Py.PStr location) ->
  (length (Py.split "/" (Py.str_slice_from1 location)) < 2)%nat ->
  valueAt node "numberOfCubes" t = Some n ->
  valueAt node "rotateCubes" t = Some r ->
  (Py.eq_int r 1 = true -> is_Some (node !! "maxRotation")) ->
  locationPaths (Py.str_slice_from1 location) = [] /\
  hierarchyOf location = "" /\
  exists args : GroupAttribute,
    outcome (buildCubeMakerOpChain node (frame t)) = inr tt /\
    appendedOps (trace (buildCubeMakerOpChain node (frame t)))
      = [("CubeMaker", args)] /\
    args !! ".a.numberOfCubes" = Some (IntAttribute n) /\
    args <> ∅.
Proof.
  intros Hloc Hshort Hn Hr Hmax.
  assert (locationPaths (Py.str_slice_from1 location) = []) as Hpaths.
  { unfold locationPaths.
    destruct (Py.split "/" (Py.str_slice_from1 location)) as [|w [|w' ws]];
      simpl in *; [done | done | lia]. }
  assert (hierarchyOf location = "") as Hhier
    by (unfold hierarchyOf; by rewrite Hpaths).
  do 2 (split; [done|]).
  destruct (run_completes node (frame t) _ _ _ Hloc Hn Hr Hmax)
    as (args & Hout & Hops & Hlook & _).
  rewrite Hhier in Hlook. exists args. repeat split; [done..|].
  intros ->. by rewrite lookup_empty in Hlook.
Qed.

(** [location = "/root"], with rotation on. *)
Lemma C9_root_location :
  locationPaths (Py.str_slice_from1 "/root") = [] /\
  hierarchyOf "/root" = "" /\
  exists args : GroupAttribute,
    outcome (buildCubeMakerOpChain (cubeMakerNode "/root" 20 1 double_15)
               (frame double_0)) = inr tt /\
    appendedOps (trace (buildCubeMakerOpChain
                          (cubeMakerNode "/root" 20 1 double_15)
                          (frame double_0)))
      = [("CubeMaker", args)] /\
    args !! ".a.numberOfCubes" = Some (IntAttribute (Py.PInt 20)) /\
    args <> ∅.
Proof.
  apply (C9_short_location (cubeMakerNode "/root" 20 1 double_15) double_0
           "/root" (Py.PInt 20) (Py.PInt 1)).
  - vm_compute; reflexivity.
  - simpl; lia.
  - vm_compute; reflexivity.
  - vm_compute; reflexivity.
  - intros _. vm_compute. eexists; reflexivity.
Defined.

(** C7: whatever parameters the node has, the run calls
    [setMinRequiredInputs] once, with 0, before anything else. *)
Theorem C7_min_required_inputs node t :
  minRequiredInputsCalls (trace (buildCubeMakerOpChain node (frame t))) = [0]
  /\ head (trace (buildCubeMakerOpChain node (frame t)))
       = Some (SetMinRequiredInputs 0).
Proof. run_cases node t; done. Qed.

(** C3: with [location] present (a string) and the three other parameters
    having values, the Op's arguments have a [maxRotation] key exactly when
    the value of [rotateCubes] equals 1; the key then holds a double
    attribute made of the value of [maxRotation], next to [numberOfCubes]. *)
Theorem C3_maxRotation_iff_rotateCubes node t location n r m :
  valueAt node "location" t = Some (Py.PStr location) ->
  valueAt node "numberOfCubes" t = Some n ->
  valueAt node "rotateCubes" t = Some r ->
  valueAt node "maxRotation" t = Some m ->
  exists args : GroupAttribute,
    outcome (buildCubeMakerOpChain node (frame t)) = inr tt /\
    appendedOps (trace (buildCubeMakerOpChain node (frame t)))
      = [("CubeMaker", args)] /\
    (contains_key args "maxRotation" = true <-> Py.eq_int r 1 = true) /\
    (Py.eq_int r 1 = true ->
       args !! (hierarchyOf location +:+ ".a.maxRotation")
         = Some (DoubleAttribute m)) /\
    args !! (hierarchyOf location +:+ ".a.numberOfCubes")
      = Some (IntAttribute n).
Proof.
  intros Hloc Hn Hr Hm.
  destruct (Py.eq_int r 1) eqn:Hrot.
  - rewrite (run_rotating node (frame t) _ _ _ _ Hloc Hn Hr Hrot Hm).
    eexists. repeat split; simpl.
    + intros _. apply contains_key_spec.
      exists (hierarchyOf location +:+ ".a.maxRotation"), (DoubleAttribute m).
      split.
      * apply lookup_insert_eq.
      * by apply leaf_name_a.
    + intros _. apply lookup_insert_eq.
    + rewrite lookup_insert_ne by apply paths_differ.
      apply lookup_singleton_eq.
  - rewrite (run_not_rotating node (frame t) _ _ _ Hloc Hn Hr Hrot).
    eexists. repeat split; simpl; try done.
    + intros (path & attr & Hlook & Hleaf)%contains_key_spec.
      apply lookup_singleton_Some in Hlook as [<- _].
      pose proof (leaf_name_a (hierarchyOf location) "numberOfCubes" eq_refl)
        as Hcubes.
      change (".a." +:+ "numberOfCubes") with ".a.numberOfCubes" in Hcubes.
      congruence.
    + apply lookup_singleton_eq.
Qed.

(** [rotateCubes = 1] and [maxRotation = 15.0]. *)
Lemma C3_rotating_by_15 :
  exists args : GroupAttribute,
    appendedOps (trace (buildCubeMakerOpChain
                          (cubeMakerNode "/root/world/geo/cubeMaker" 20 1
                                         double_15)
                          (frame double_0)))
      = [("CubeMaker", args)] /\
    contains_key args "maxRotation" = true /\
    args !! "c.world.c.geo.c.cubeMaker.a.maxRotation"
      = Some (DoubleAttribute (Py.PFloat double_15)) /\
    args !! "c.world.c.geo.c.cubeMaker.a.numberOfCubes"
      = Some (IntAttribute (Py.PInt 20)).
Proof.
  destruct (C3_maxRotation_iff_rotateCubes
              (cubeMakerNode "/root/world/geo/cubeMaker" 20 1 double_15)
              double_0 "/root/world/geo/cubeMaker"
              (Py.PInt 20) (Py.PInt 1) (Py.PFloat double_15))
    as (args & _ & Hops & Hkey & Hmax & Hcubes).
  - vm_compute; reflexivity.
  - vm_compute; reflexivity.
  - vm_compute; reflexivity.
  - vm_compute; reflexivity.
  - exists args. split; [exact Hops|]. split; [|split].
    + apply Hkey. reflexivity.
    + apply Hmax. reflexivity.
    + exact Hcubes.
Defined.

(** C2, as the spec states it, fails for the empty string: the parameter is
    present, so the branch is taken, no segment is derived and
    [numberOfCubes] is stored under [.a.numberOfCubes]. *)
Lemma C2_empty_string_location :
  valueAt (cubeMakerNode "" 20 0 double_0) "location" double_0
    = Some (Py.PStr "") /\
  appendedOps (trace (buildCubeMakerOpChain (cubeMakerNode "" 20 0 double_0)
                        (frame double_0)))
    = [("CubeMaker", {[ ".a.numberOfCubes" := IntAttribute (Py.PInt 20) ]})]
  /\ appendedOps (trace (buildCubeMakerOpChain
                           (cubeMakerNode "" 20 0 double_0)
                           (frame double_0)))
    <> [("CubeMaker", ∅)].
Proof.
  assert (valueAt (cubeMakerNode "" 20 0 double_0) "location" double_0
            = Some (Py.PStr "")) as Hloc by (vm_compute; reflexivity).
  split; [exact Hloc|].
  rewrite (run_not_rotating _ (frame double_0) "" (Py.PInt 20) (Py.PInt 0)
             Hloc);
    [| vm_compute; reflexivity | vm_compute; reflexivity | reflexivity].
  split; [reflexivity|].
  simpl. intros [=].
Qed.

(** C2, amended: when the node has no [location] parameter, the run
    completes and the Op it appends has no arguments, whatever the other
    parameters are. *)
Theorem C2_location_absent node t :
  node !! "location" = None ->
  outcome (buildCubeMakerOpChain node (frame t)) = inr tt /\
  appendedOps (trace (buildCubeMakerOpChain node (frame t)))
    = [("CubeMaker", ∅)].
Proof.
  intros Hloc.
  pose proof (proj2 (valueAt_None node (frame t) "location") Hloc) as Hnone.
  by rewrite (run_location_absent node (frame t) Hnone).
Qed.

Lemma C2_without_location :
  outcome (buildCubeMakerOpChain
             (delete "location"
                (cubeMakerNode "/root/world/geo/cubeMaker" 20 1 double_15))
             (frame double_0)) = inr tt /\
  appendedOps (trace (buildCubeMakerOpChain
             (delete "location"
                (cubeMakerNode "/root/world/geo/cubeMaker" 20 1 double_15))
             (frame double_0)))
    = [("CubeMaker", ∅)].
Proof.
  apply (C2_location_absent
           (delete "location"
              (cubeMakerNode "/root/world/geo/cubeMaker" 20 1 double_15))
           double_0).
  vm_compute; reflexivity.
Defined.

(** C4, as the spec states it, fails for a run that an exception ends: with
    [location] alone, line 54 calls [getValue] on [None] and line 61 is
    never reached. *)
Lemma C4_aborted_run_appends_nothing :
  outcome (buildCubeMakerOpChain locationOnlyNode (frame double_0))
    = inl Py.AttributeError /\
  appendedOps (trace (buildCubeMakerOpChain locationOnlyNode (frame double_0)))
    = [].
Proof. split; vm_compute; reflexivity. Qed.

(** C4, amended: a run that completes, as every run without a [location]
    parameter does, appends exactly one Op, as its last act; the Op is
    named [CubeMaker] and its arguments are the group that was built: empty
    without [location], and holding [numberOfCubes] with it. *)
Theorem C4_one_op_appended node t :
  node !! "location" = None
  \/ outcome (buildCubeMakerOpChain node (frame t)) = inr tt ->
  exists args : GroupAttribute,
    outcome (buildCubeMakerOpChain node (frame t)) = inr tt /\
    appendedOps (trace (buildCubeMakerOpChain node (frame t)))
      = [("CubeMaker", args)] /\
    last (trace (buildCubeMakerOpChain node (frame t)))
      = Some (AppendOp "CubeMaker" args) /\
    (node !! "location" = None -> args = ∅) /\
    (forall location n,
       valueAt node "location" t = Some (Py.PStr location) ->
       valueAt node "numberOfCubes" t = Some n ->
       args !! (hierarchyOf location +:+ ".a.numberOfCubes")
         = Some (IntAttribute n)).
Proof.
  intros Hdone.
  assert (valueAt node "location" t = None
          \/ outcome (buildCubeMakerOpChain node (frame t)) = inr tt)
    as [Hnone | Hout].
  { destruct Hdone as [Hnone | Hout]; [left | by right].
    by apply (valueAt_None node (frame t)). }
  - rewrite (run_location_absent node (frame t) Hnone).
    exists ∅. repeat split; try done. intros location n Hloc.
    simpl in Hnone. congruence.
  - revert Hout. run_cases node t; intros Hout; try discriminate Hout.
    + eexists. repeat split; simpl.
      * intros Habs%(valueAt_None node (frame t)). simpl in Habs. congruence.
      * intros ? ? [= <-] [= <-].
        rewrite lookup_insert_ne by apply paths_differ.
        apply lookup_singleton_eq.
    + eexists. repeat split; simpl.
      * intros Habs%(valueAt_None node (frame t)). simpl in Habs. congruence.
      * intros ? ? [= <-] [= <-]. apply lookup_singleton_eq.
    + exists ∅. repeat split; done.
Qed.

Lemma C4_default_node :
  exists args : GroupAttribute,
    outcome (buildCubeMakerOpChain defaultNode (frame double_0)) = inr tt /\
    appendedOps (trace (buildCubeMakerOpChain defaultNode (frame double_0)))
      = [("CubeMaker", args)] /\
    last (trace (buildCubeMakerOpChain defaultNode (frame double_0)))
      = Some (AppendOp "CubeMaker" args).
Proof.
  destruct (C4_one_op_appended defaultNode double_0)
    as (args & Hout & Hops & Hlast & _).
  - right. vm_compute; reflexivity.
  - exists args. split; [exact Hout|]. split; [exact Hops | exact Hlast].
Defined.

(** C5, as the spec states it, fails when [maxRotation] is the absent
    parameter and [rotateCubes] is not 1: line 58 is not reached and the
    run completes. *)
Lemma C5_absent_maxRotation_unread :
  is_Some (delete "maxRotation" defaultNode !! "location") /\
  delete "maxRotation" defaultNode !! "maxRotation" = None /\
  outcome (buildCubeMakerOpChain (delete "maxRotation" defaultNode)
             (frame double_0)) = inr tt.
Proof.
  split; [| split].
  - vm_compute. eexists; reflexivity.
  - vm_compute; reflexivity.
  - vm_compute; reflexivity.
Qed.

(** C5, amended: with [location] present, the run is aborted, and appends
    no Op, when [rotateCubes] is absent, or when [maxRotation] is absent
    and the value of [rotateCubes] equals 1; the exception is the
    [AttributeError] of the call on [None] whenever [location] is a string
    and [numberOfCubes] is present, so that the call is reached.  No run
    fails in another way than by slicing a [location] that is not a string
    or by calling [getValue] on an absent parameter. *)
Theorem C5_missing_parameter_aborts node t :
  is_Some (node !! "location") ->
  (node !! "rotateCubes" = None
   \/ (node !! "maxRotation" = None /\
       exists r, valueAt node "rotateCubes" t = Some r /\
                 Py.eq_int r 1 = true) ->
   exists e,
     outcome (buildCubeMakerOpChain node (frame t)) = inl e /\
     appendedOps (trace (buildCubeMakerOpChain node (frame t))) = [] /\
     (forall location n,
        valueAt node "location" t = Some (Py.PStr location) ->
        valueAt node "numberOfCubes" t = Some n ->
        e = Py.AttributeError)) /\
  (forall e,
     outcome (buildCubeMakerOpChain node (frame t)) = inl e ->
     (e = Py.TypeError /\
      exists v, valueAt node "location" t = Some v /\
                Py.getslice_from1 v = inl Py.TypeError)
     \/ (e = Py.AttributeError /\
         (node !! "numberOfCubes" = None \/ node !! "rotateCubes" = None
          \/ node !! "maxRotation" = None))).
Proof.
  intros [p Hp].
  assert (valueAt node "location" t <> None) as Hsome.
  { intros Hnone%(valueAt_None node (frame t)). simpl in Hnone. congruence. }
  assert (forall name, node !! name = None <-> valueAt node name t = None)
    as Hnone by (intros name; symmetry; apply (valueAt_None node (frame t))).
  split.
  - intros Hmissing.
    assert (valueAt node "rotateCubes" t = None
            \/ (valueAt node "maxRotation" t = None /\
                exists r, valueAt node "rotateCubes" t = Some r /\
                          Py.eq_int r 1 = true)) as Hcases.
    { destruct Hmissing as [Hrc | [Hmr Hrot]];
        [left | right; split]; try by apply Hnone. done. }
    clear Hmissing. run_cases node t; try done.
    all: first
      [ by (exfalso; destruct Hcases as [? | [? (r' & ? & ?)]];
            simplify_eq; congruence)
      | eexists; repeat split; intros; by simplify_eq ].
  - intros e. rewrite !Hnone. run_cases node t; simpl; intros [= <-]; eauto.
    all: left; split; [done|]; eexists; split; done.
Qed.

(** No [rotateCubes]: the run stops at line 55. *)
Lemma C5_without_rotateCubes :
  exists e,
    outcome (buildCubeMakerOpChain (delete "rotateCubes" defaultNode)
               (frame double_0)) = inl e /\
    appendedOps (trace (buildCubeMakerOpChain
                          (delete "rotateCubes" defaultNode)
                          (frame double_0))) = [] /\
    e = Py.AttributeError.
Proof.
  destruct (C5_missing_parameter_aborts (delete "rotateCubes" defaultNode)
              double_0) as [Haborts _].
  - vm_compute. eexists; reflexivity.
  - destruct Haborts as (e & Hout & Hops & Herr).
    + left. vm_compute; reflexivity.
    + exists e. split; [exact Hout|]. split; [exact Hops|].
      apply (Herr "/root/world/geo/cubeMaker" (Py.PInt 20)).
      * vm_compute; reflexivity.
      * vm_compute; reflexivity.
Defined.

(** C6: two runs at the same evaluation time, on nodes whose four
    parameters are present or absent alike and have the same values at that
    time, are identical: the same events, hence the same Op arguments, and
    the same outcome. *)
Theorem C6_deterministic node1 node2 t :
  valueAt node1 "location" t = valueAt node2 "location" t ->
  valueAt node1 "numberOfCubes" t = valueAt node2 "numberOfCubes" t ->
  valueAt node1 "rotateCubes" t = valueAt node2 "rotateCubes" t ->
  valueAt node1 "maxRotation" t = valueAt node2 "maxRotation" t ->
  buildCubeMakerOpChain node1 (frame t) = buildCubeMakerOpChain node2 (frame t)
  /\ appendedOps (trace (buildCubeMakerOpChain node1 (frame t)))
     = appendedOps (trace (buildCubeMakerOpChain node2 (frame t))).
Proof.
  intros Hloc Hn Hr Hm.
  assert (buildCubeMakerOpChain node1 (frame t)
          = buildCubeMakerOpChain node2 (frame t)) as Hrun;
    [| by rewrite Hrun].
  run_cases node1 t; symmetry.
  - by apply (run_rotating node2 (frame t) location n r m).
  - by apply (run_maxRotation_absent node2 (frame t) location n r).
  - by apply (run_not_rotating node2 (frame t) location n r).
  - by apply (run_rotateCubes_absent node2 (frame t) location n).
  - by apply (run_numberOfCubes_absent node2 (frame t) location).
  - by eapply (run_location_not_str node2 (frame t)).
  - by eapply (run_location_not_str node2 (frame t)).
  - by eapply (run_location_not_str node2 (frame t)).
  - by apply (run_location_absent node2 (frame t)).
Qed.

(** Two different nodes that agree at frame 0. *)
Lemma C6_same_values_at_frame_0 :
  buildCubeMakerOpChain defaultNode (frame double_0)
    = buildCubeMakerOpChain animatedNode (frame double_0)
  /\ appendedOps (trace (buildCubeMakerOpChain defaultNode (frame double_0)))
     = appendedOps (trace (buildCubeMakerOpChain animatedNode
                             (frame double_0))).
Proof.
  apply (C6_deterministic defaultNode animatedNode double_0).
  - vm_compute; reflexivity.
  - vm_compute; reflexivity.
  - vm_compute; reflexivity.
  - vm_compute; reflexivity.
Defined.

(** C8: the parameters template of the registered node type has exactly
    the four entries [location], [numberOfCubes], [rotateCubes] and
    [maxRotation], with their types and defaults. *)
Theorem C8_parameters_template :
  nodeType registerCubeMaker = "CubeMaker" /\
  dom (parametersTemplateAttr registerCubeMaker)
    = ({[ "location"; "numberOfCubes"; "rotateCubes"; "maxRotation" ]}
       : gset string) /\
  size (parametersTemplateAttr registerCubeMaker) = 4%nat /\
  parametersTemplateAttr registerCubeMaker !! "location"
    = Some (StringAttribute (Py.PStr "/root/world/geo/cubeMaker")) /\
  parametersTemplateAttr registerCubeMaker !! "numberOfCubes"
    = Some (IntAttribute (Py.PInt 20)) /\
  parametersTemplateAttr registerCubeMaker !! "rotateCubes"
    = Some (IntAttribute (Py.PInt 0)) /\
  parametersTemplateAttr registerCubeMaker !! "maxRotation"
    = Some (DoubleAttribute (Py.PInt 0)).
Proof.
  assert (dom (parametersTemplateAttr registerCubeMaker)
          = ({[ "location"; "numberOfCubes"; "rotateCubes"; "maxRotation" ]}
             : gset string)) as Hdom.
  { simpl. unfold parametersTemplate, GroupBuilder_build, GroupBuilder_set,
      GroupBuilder_new.
    rewrite !dom_insert_L, dom_empty_L. set_solver. }
  split; [done|]. split; [done|]. split.
  - vm_compute; reflexivity.
  - repeat split; vm_compute; reflexivity.
Qed.

(** C10: with [location] present (a string), [maxRotation] is read only
    when the value of [rotateCubes] equals 1, and is read then; when it
    does not equal 1 the run completes whether the node has [maxRotation]
    or not.  [numberOfCubes] and [rotateCubes] are dereferenced in any
    case: absent, each aborts the run with an [AttributeError], and a run
    that completes has read both. *)
Theorem C10_maxRotation_read_when_rotating node t path :
  valueAt node "location" t = Some (Py.PStr path) ->
  ("maxRotation" ∈ valuesRead (trace (buildCubeMakerOpChain node (frame t)))
   -> exists r, valueAt node "rotateCubes" t = Some r /\
                Py.eq_int r 1 = true) /\
  (forall n r m,
     valueAt node "numberOfCubes" t = Some n ->
     valueAt node "rotateCubes" t = Some r ->
     valueAt node "maxRotation" t = Some m ->
     Py.eq_int r 1 = true ->
     "maxRotation"
       ∈ valuesRead (trace (buildCubeMakerOpChain node (frame t)))) /\
  (forall n r,
     valueAt node "numberOfCubes" t = Some n ->
     valueAt node "rotateCubes" t = Some r ->
     Py.eq_int r 1 = false ->
     outcome (buildCubeMakerOpChain node (frame t)) = inr tt) /\
  (node !! "numberOfCubes" = None ->
   outcome (buildCubeMakerOpChain node (frame t)) = inl Py.AttributeError) /\
  (is_Some (node !! "numberOfCubes") -> node !! "rotateCubes" = None ->
   outcome (buildCubeMakerOpChain node (frame t)) = inl Py.AttributeError) /\
  (outcome (buildCubeMakerOpChain node (frame t)) = inr tt ->
   "numberOfCubes"
     ∈ valuesRead (trace (buildCubeMakerOpChain node (frame t))) /\
   "rotateCubes"
     ∈ valuesRead (trace (buildCubeMakerOpChain node (frame t)))).
Proof.
  intros Hlocation.
  assert (forall name, node !! name = None <-> valueAt node name t = None)
    as Hnone by (intros name; symmetry; apply (valueAt_None node (frame t))).
  assert (forall name, is_Some (node !! name)
                       <-> is_Some (valueAt node name t)) as Hsome.
  { intros name. rewrite <- !not_eq_None_Some. by rewrite Hnone. }
  rewrite !Hnone, !Hsome.
  run_cases node t; try discriminate Hlocation; simpl.
  all: repeat split; intros; simplify_eq; try congruence; eauto.
  all: try by (exfalso; eapply is_Some_None; eauto).
  all: match goal with
       | |- _ ∈ _ => apply list_elem_of_In; simpl; auto 10
       | H : _ ∈ _ |- _ =>
           apply list_elem_of_In in H; simpl in H; exfalso;
           repeat (destruct H as [H | H]; [discriminate H|]); exact H
       end.
Qed.

(** Rotation off and no [maxRotation] parameter: the run completes. *)
Lemma C10_not_rotating_without_maxRotation :
  outcome (buildCubeMakerOpChain (delete "maxRotation" defaultNode)
             (frame double_0)) = inr tt.
Proof.
  destruct (C10_maxRotation_read_when_rotating
              (delete "maxRotation" defaultNode) double_0
              "/root/world/geo/cubeMaker") as (_ & _ & Hdone & _).
  - vm_compute; reflexivity.
  - apply (Hdone (Py.PInt 20) (Py.PInt 0)).
    + vm_compute; reflexivity.
    + vm_compute; reflexivity.
    + reflexivity.
Defined.

(** ** More on [split], [join] and the hierarchy path *)

Section SplitJoin.

Implicit Types (s t : string) (sep : ascii) (l : list string).

Lemma join_cons_cons sepstr x y l :
  Py.join sepstr (x :: y :: l) = x +:+ sepstr +:+ Py.join sepstr (y :: l).
Proof. reflexivity. Qed.

Lemma has_char_append c s t :
  has_char c (s +:+ t) = has_char c s || has_char c t.
Proof.
  induction s as [|c' s IH]; simpl; [done|].
  by rewrite IH, orb_assoc.
Qed.

Lemma has_char_count c s : has_char c s = false <-> count_char c s = O.
Proof.
  induction s as [|c' s IH]; simpl; [done|].
  destruct (Ascii.eqb c' c); simpl; [split; discriminate | exact IH].
Qed.

Lemma length_split sep s : length (Py.split sep s) = S (count_char sep s).
Proof.
  induction s as [|c s IH]; simpl; [done|].
  destruct (Ascii.eqb c sep); simpl; [by rewrite IH|].
  pose proof (split_not_nil sep s) as Hne.
  destruct (Py.split sep s); [done | exact IH].
Qed.

Lemma join_split sep s : Py.join (String sep "") (Py.split sep s) = s.
Proof.
  induction s as [|c s IH]; [done|].
  pose proof (split_not_nil sep s) as Hne.
  cbn [Py.split].
  destruct (Ascii.eqb c sep) eqn:Hc.
  - apply Ascii.eqb_eq in Hc as ->.
    destruct (Py.split sep s) as [|w ws]; [done|].
    rewrite join_cons_cons, IH. reflexivity.
  - destruct (Py.split sep s) as [|w [|w' ws]]; [done | | ].
    + cbn [Py.join] in *. by rewrite IH.
    + rewrite join_cons_cons in *. rewrite <- IH. reflexivity.
Qed.

Lemma split_join sep l :
  l <> [] -> forallb (fun x => negb (has_char sep x)) l = true ->
  Py.split sep (Py.join (String sep "") l) = l.
Proof.
  induction l as [|x [|y l] IH]; [done | | ]; intros _ Hfree.
  - simpl in *. apply andb_true_iff in Hfree as [Hx%negb_true_iff _].
    by apply split_no_sep.
  - rewrite join_cons_cons.
    change (forallb _ (x :: y :: l))
      with (negb (has_char sep x)
            && forallb (fun x => negb (has_char sep x)) (y :: l)) in Hfree.
    apply andb_true_iff in Hfree as [Hx%negb_true_iff Hrest].
    change (x +:+ String sep "" +:+ Py.join (String sep "") (y :: l))
      with (x +:+ String sep ("" +:+ Py.join (String sep "") (y :: l))).
    rewrite split_append, (split_no_sep _ _ Hx). simpl app.
    f_equal. by apply IH.
Qed.

Lemma interleave_inj c l1 l2 :
  Py.interleave c l1 = Py.interleave c l2 -> l1 = l2.
Proof.
  revert l2. induction l1 as [|x l1 IH]; intros [|y l2]; try done.
  rewrite !interleave_cons. intros [= -> Hrest]. f_equal. by apply IH.
Qed.

Lemma interleave_names l :
  forallb is_name l = true -> forallb is_name (Py.interleave "c" l) = true.
Proof.
  induction l as [|x l IH]; [done|].
  rewrite interleave_cons. simpl. intros [-> Hl]%andb_true_iff. by apply IH.
Qed.

Lemma split_attrsHierarchy l :
  l <> [] -> forallb is_name l = true ->
  Py.split "." (attrsHierarchy l) = Py.interleave "c" l.
Proof.
  intros Hne Hnames. unfold attrsHierarchy. apply split_join.
  - by destruct l.
  - by apply interleave_names.
Qed.

Lemma hierarchy_path_snoc l x :
  hierarchy_path (l ++ [x]) =
    match l with
    | [] => "c." +:+ x
    | _ => hierarchy_path l +:+ ".c." +:+ x
    end.
Proof.
  induction l as [|y [|z l] IH]; [done | done |].
  change (hierarchy_path ((y :: z :: l) ++ [x]))
    with ("c." +:+ y +:+ "." +:+ hierarchy_path ((z :: l) ++ [x])).
  rewrite IH.
  change (hierarchy_path (y :: z :: l))
    with ("c." +:+ y +:+ "." +:+ hierarchy_path (z :: l)).
  simpl. by rewrite !append_assoc.
Qed.

End SplitJoin.

Lemma attrsHierarchy_empty l : attrsHierarchy l = "" <-> l = [].
Proof.
  split; [| by intros ->].
  rewrite attrsHierarchy_hierarchy_path. by destruct l as [|x [|y l]].
Qed.

Lemma is_segment_append s t :
  is_segment (s +:+ t) = is_segment s && is_segment t.
Proof. unfold is_segment. by rewrite has_char_append, negb_orb. Qed.

(** ** What lines 48 to 51 keep and lose *)

(** X1: splitting on ["/"] loses nothing: joining the components with
    ["/"] gives the string back, and [locationPaths] has as many segments
    as the string has ["/"]. *)
Theorem X1_split_keeps_the_string s :
  Py.join "/" (Py.split "/" s) = s /\
  length (locationPaths s) = count_char "/" s.
Proof.
  split; [apply join_split|].
  unfold locationPaths, Py.list_slice_from1.
  pose proof (length_split "/" s) as Hlen.
  destruct (Py.split "/" s); simpl in *; lia.
Qed.

(** X2: the hierarchy path is empty exactly when nothing follows the first
    character of [location] but a string without ["/"]; in every other
    case it starts with the group [c]. *)
Theorem X2_hierarchy_empty_iff location :
  (hierarchyOf location = ""
   <-> count_char "/" (Py.str_slice_from1 location) = O) /\
  (hierarchyOf location <> "" ->
   exists rest, hierarchyOf location = "c." +:+ rest).
Proof.
  unfold hierarchyOf.
  pose proof (length_split "/" (Py.str_slice_from1 location)) as Hlen.
  unfold locationPaths, Py.list_slice_from1 in *.
  destruct (Py.split "/" (Py.str_slice_from1 location)) as [|w ws];
    simpl in Hlen; [lia|]. simpl tail.
  split.
  - rewrite attrsHierarchy_empty. split.
    + intros ->. simpl in Hlen. lia.
    + intros Hcount. destruct ws; [done | simpl in Hlen; lia].
  - intros Hne. rewrite attrsHierarchy_hierarchy_path in *.
    destruct ws as [|x [|y ws]]; [done | by eexists | by eexists].
Qed.

(** X3: when no segment contains ["."], the hierarchy path can be decoded:
    its components are [c], the first segment, [c], the second segment and
    so on, and two lists of such segments with the same path are equal. *)
Theorem X3_hierarchy_decodes l :
  forallb is_name l = true ->
  (l <> [] -> Py.split "." (attrsHierarchy l) = Py.interleave "c" l) /\
  (forall l', forallb is_name l' = true ->
              attrsHierarchy l' = attrsHierarchy l -> l' = l).
Proof.
  intros Hl. split; [intros Hne; by apply split_attrsHierarchy|].
  intros l' Hl' Heq.
  destruct l as [|x l], l' as [|x' l']; [done | | | ].
  - by apply attrsHierarchy_empty in Heq.
  - symmetry in Heq. by apply attrsHierarchy_empty in Heq.
  - apply (interleave_inj "c").
    rewrite <- !split_attrsHierarchy by done. by rewrite Heq.
Qed.

Lemma X3_world_geo :
  Py.split "." (attrsHierarchy ["world"; "geo"]) = ["c"; "world"; "c"; "geo"].
Proof.
  apply (X3_hierarchy_decodes ["world"; "geo"]).
  - reflexivity.
  - intros Habs. discriminate Habs.
Defined.

(** X4: a segment that contains [.c.] cannot be told from two segments:
    the locations [/first/a.c.b/...] and [/first/a/b/...] have the same
    hierarchy path. *)
Theorem X4_dotted_segment_collides first a b rest :
  forallb is_segment (first :: a :: b :: rest) = true ->
  hierarchyOf (location_of (first :: (a +:+ ".c." +:+ b) :: rest))
    = hierarchyOf (location_of (first :: a :: b :: rest)).
Proof.
  intros Hseg. unfold hierarchyOf.
  rewrite (locationPaths_location_of first (a :: b :: rest) Hseg).
  rewrite (locationPaths_location_of first ((a +:+ ".c." +:+ b) :: rest)).
  - rewrite !attrsHierarchy_hierarchy_path.
    destruct rest as [|x rest].
    + reflexivity.
    + change (hierarchy_path ((a +:+ ".c." +:+ b) :: x :: rest))
        with ("c." +:+ (a +:+ ".c." +:+ b) +:+ "."
              +:+ hierarchy_path (x :: rest)).
      change (hierarchy_path (a :: b :: x :: rest))
        with ("c." +:+ a +:+ "." +:+ "c." +:+ b +:+ "."
              +:+ hierarchy_path (x :: rest)).
      simpl. rewrite ?append_assoc. reflexivity.
  - cbn [forallb] in *.
    apply andb_true_iff in Hseg as [-> Hseg].
    apply andb_true_iff in Hseg as [Ha Hseg].
    apply andb_true_iff in Hseg as [Hb ->].
    rewrite !is_segment_append, Ha, Hb. reflexivity.
Qed.

Lemma X4_geo_c_cube :
  hierarchyOf "/root/geo.c.cube" = hierarchyOf "/root/geo/cube".
Proof.
  apply (X4_dotted_segment_collides "root" "geo" "cube" []).
  reflexivity.
Defined.

(** X5: a trailing ["/"] adds one segment, the empty string, and so one
    group [c] with an empty name at the end of the hierarchy path. *)
Theorem X5_trailing_slash c s :
  locationPaths (Py.str_slice_from1 (String c s +:+ "/"))
    = locationPaths s ++ [""] /\
  hierarchyOf (String c s +:+ "/") =
    match locationPaths s with
    | [] => "c."
    | _ => hierarchyOf (String c s) +:+ ".c."
    end.
Proof.
  assert (locationPaths (Py.str_slice_from1 (String c s +:+ "/"))
          = locationPaths s ++ [""]) as Hpaths.
  { unfold locationPaths. simpl Py.str_slice_from1.
    change (s +:+ "/") with (s +:+ String "/" "").
    rewrite split_append. simpl.
    pose proof (split_not_nil "/" s) as Hne.
    by destruct (Py.split "/" s). }
  split; [done|].
  unfold hierarchyOf. rewrite Hpaths. simpl Py.str_slice_from1.
  rewrite !attrsHierarchy_hierarchy_path, hierarchy_path_snoc.
  destruct (locationPaths s); [done|]. by rewrite append_empty_r.
Qed.

(** ** What the callback reads and what it stores *)

Lemma contains_key_false (g : GroupAttribute) key :
  (forall path attr, g !! path = Some attr -> leaf_name path <> key) ->
  contains_key g key = false.
Proof.
  intros Hall. destruct (contains_key g key) eqn:Hkey; [|done].
  apply contains_key_spec in Hkey as (path & attr & Hlook & Hleaf).
  by destruct (Hall path attr Hlook).
Qed.

Lemma leaf_name_numberOfCubes hierarchy :
  leaf_name (hierarchy +:+ ".a.numberOfCubes") = "numberOfCubes".
Proof. by apply (leaf_name_a hierarchy "numberOfCubes"). Qed.

Lemma leaf_name_maxRotation hierarchy :
  leaf_name (hierarchy +:+ ".a.maxRotation") = "maxRotation".
Proof. by apply (leaf_name_a hierarchy "maxRotation"). Qed.

(** X6: a [location] whose value is not a string ends the run with a
    [TypeError] at line 48: [setMinRequiredInputs(0)] was called, no other
    parameter was read and no Op was appended. *)
Theorem X6_location_not_a_string node t v :
  valueAt node "location" t = Some v ->
  is_str v = false ->
  outcome (buildCubeMakerOpChain node (frame t)) = inl Py.TypeError /\
  valuesRead (trace (buildCubeMakerOpChain node (frame t))) = ["location"] /\
  appendedOps (trace (buildCubeMakerOpChain node (frame t))) = [] /\
  minRequiredInputsCalls (trace (buildCubeMakerOpChain node (frame t))) = [0].
Proof.
  intros Hloc Hstr.
  destruct v; try discriminate Hstr;
    by rewrite (run_location_not_str node (frame t) _ Hloc eq_refl).
Qed.

Lemma X6_numeric_location :
  outcome (buildCubeMakerOpChain numericLocationNode (frame double_0))
    = inl Py.TypeError /\
  valuesRead (trace (buildCubeMakerOpChain numericLocationNode
                       (frame double_0))) = ["location"] /\
  appendedOps (trace (buildCubeMakerOpChain numericLocationNode
                        (frame double_0))) = [] /\
  minRequiredInputsCalls (trace (buildCubeMakerOpChain numericLocationNode
                                   (frame double_0))) = [0].
Proof.
  apply (X6_location_not_a_string numericLocationNode double_0 (Py.PInt 3)).
  - vm_compute; reflexivity.
  - reflexivity.
Defined.

(** X7: whatever the node, an Op the run appends is named [CubeMaker] and
    its arguments hold nothing but the value of [numberOfCubes] in an int
    attribute and the value of [maxRotation] in a double attribute: the
    values of [location] and [rotateCubes] are never stored. *)
Theorem X7_only_two_keys node t :
  Forall (fun op : string * GroupAttribute =>
            op.1 = "CubeMaker" /\
            (forall path attr, op.2 !! path = Some attr ->
               (leaf_name path = "numberOfCubes" /\
                exists n, valueAt node "numberOfCubes" t = Some n /\
                          attr = IntAttribute n)
               \/ (leaf_name path = "maxRotation" /\
                   exists m, valueAt node "maxRotation" t = Some m /\
                             attr = DoubleAttribute m)) /\
            contains_key op.2 "location" = false /\
            contains_key op.2 "rotateCubes" = false)
         (appendedOps (trace (buildCubeMakerOpChain node (frame t)))).
Proof.
  run_cases node t; cbn;
    (first [ by apply List.Forall_nil | apply Forall_singleton ]);
    cbn [fst snd].
  all: match goal with
       | |- _ /\ ?Leaves /\ _ =>
           assert Leaves as Hleaves;
           [| split; [done|]; split; [exact Hleaves|];
              split; apply contains_key_false; intros path attr Hlook;
              destruct (Hleaves path attr Hlook) as [[-> _] | [-> _]];
              discriminate ]
       end.
  - intros path attr
      [[<- <-] | [_ [<- <-]%lookup_singleton_Some]]%lookup_insert_Some;
      [right | left];
      rewrite ?leaf_name_numberOfCubes, ?leaf_name_maxRotation; eauto.
  - intros path attr [<- <-]%lookup_singleton_Some. left.
    rewrite leaf_name_numberOfCubes. eauto.
  - intros path attr Hlook. by rewrite lookup_empty in Hlook.
Qed.

(** X8: the run reads the parameters in the order [location],
    [numberOfCubes], [rotateCubes], [maxRotation], each at most once and
    none after one it could not read, and reads every one of them at the
    time the interface reports. *)
Theorem X8_reads_in_order node t :
  valuesRead (trace (buildCubeMakerOpChain node (frame t)))
    `prefix_of` ["location"; "numberOfCubes"; "rotateCubes"; "maxRotation"]
  /\ Forall (fun ev => match ev with
                       | GetValue _ t' => t' = t
                       | _ => True
                       end)
            (trace (buildCubeMakerOpChain node (frame t))).
Proof.
  run_cases node t; (split; [eexists; reflexivity | by repeat constructor]).
Qed.

(** ** The registered node type and its callback *)

Lemma dom_parametersTemplate :
  dom parametersTemplate
    = ({[ "maxRotation" ]} ∪ ({[ "rotateCubes" ]}
        ∪ ({[ "numberOfCubes" ]} ∪ ({[ "location" ]} ∪ ∅))) : gset string).
Proof.
  unfold parametersTemplate, GroupBuilder_build, GroupBuilder_set,
    GroupBuilder_new.
  by rewrite !dom_insert_L, dom_empty_L.
Qed.

Lemma parametersTemplate_is_Some name :
  is_Some (parametersTemplate !! name) <->
  name = "maxRotation" \/ name = "rotateCubes" \/ name = "numberOfCubes"
  \/ name = "location".
Proof.
  rewrite <- elem_of_dom, dom_parametersTemplate.
  rewrite !elem_of_union, !elem_of_singleton, elem_of_empty. tauto.
Qed.

(** X9: the callback given to [setBuildOpChainFnc] reads no parameter but
    those of the template given to [setParametersTemplateAttr]. *)
Theorem X9_callback_reads_template_parameters node t :
  exists fnc,
    buildOpChainFnc registerCubeMaker = Some fnc /\
    Forall (fun name =>
              is_Some (parametersTemplateAttr registerCubeMaker !! name))
           (valuesRead (trace (fnc node (frame t)))).
Proof.
  exists buildCubeMakerOpChain. split; [reflexivity|].
  change (parametersTemplateAttr registerCubeMaker) with parametersTemplate.
  run_cases node t; cbn;
    repeat (apply List.Forall_cons;
            [apply parametersTemplate_is_Some; tauto|]);
    apply List.Forall_nil.
Qed.

(** X10: on a node that has every parameter of the registered template, no
    run fails for a missing parameter, and every run whose [location] is a
    string completes. *)
Theorem X10_template_node_completes node t :
  dom (parametersTemplateAttr registerCubeMaker) ⊆ dom node ->
  outcome (buildCubeMakerOpChain node (frame t)) <> inl Py.AttributeError /\
  (forall location,
     valueAt node "location" t = Some (Py.PStr location) ->
     outcome (buildCubeMakerOpChain node (frame t)) = inr tt).
Proof.
  change (parametersTemplateAttr registerCubeMaker) with parametersTemplate.
  intros Hsub.
  assert (forall name, is_Some (parametersTemplate !! name) ->
                       valueAt node name t <> None) as Hhas.
  { intros name Hname%elem_of_dom%Hsub%elem_of_dom Hnone.
    apply (valueAt_None node (frame t)) in Hnone.
    rewrite Hnone in Hname. by apply is_Some_None in Hname. }
  pose proof (Hhas "numberOfCubes") as Hcubes.
  pose proof (Hhas "rotateCubes") as Hrotate.
  pose proof (Hhas "maxRotation") as Hmax.
  rewrite parametersTemplate_is_Some in Hcubes, Hrotate, Hmax.
  clear Hhas.
  run_cases node t; cbn; (split; [try done | intros ? [=]; try done]).
  all: exfalso; first [apply Hcubes | apply Hrotate | apply Hmax]; tauto.
Qed.

Lemma X10_default_node :
  outcome (buildCubeMakerOpChain defaultNode (frame double_0))
    <> inl Py.AttributeError /\
  (forall location,
     valueAt defaultNode "location" double_0 = Some (Py.PStr location) ->
     outcome (buildCubeMakerOpChain defaultNode (frame double_0)) = inr tt).
Proof.
  apply (X10_template_node_completes defaultNode double_0).
  refine (bool_decide_unpack _ _). vm_compute. exact I.
Defined.

(** X11: registration gives hints for exactly the parameters of the
    template: every parameter has hints, and no hints are left for a
    parameter the node type does not have. *)
Theorem X11_hints_for_template_parameters name :
  is_Some (hintsForParameter registerCubeMaker !! name) <->
  is_Some (parametersTemplateAttr registerCubeMaker !! name).
Proof.
  change (parametersTemplateAttr registerCubeMaker) with parametersTemplate.
  rewrite parametersTemplate_is_Some, <- elem_of_dom. simpl.
  unfold setHintsForParameter, NodeTypeBuilder_new. simpl.
  rewrite !dom_insert_L, dom_empty_L.
  rewrite !elem_of_union, !elem_of_singleton, elem_of_empty. tauto.
Qed.
